(** * vis_bandwidth.py: the bandwidth CSV pipeline, embedded and verified

    The script has one function of substance, [parse_bandwidth_csv], which
    cleans a two-level-header data frame, derives six series per socket and
    hands lines to matplotlib.  The embedding follows the script statement
    by statement:

    - [Py]      the Python built-ins the script calls on strings and lists;
    - [Pandas]  the pandas values and library calls it relies on (cells,
                frames, [to_numeric], [Series.sum], [dropna], ...);
    - [Vis]     the script itself, lines 11-117.

    Numbers are exact rationals ([Q]); the binary rounding of float64 and
    the infinities are not represented.  A missing value (NaN, NaT) is
    [None]. *)

From Stdlib Require Import String Ascii List ZArith QArith Bool Lia Sorted
  Permutation.
Import ListNotations.
Local Open Scope string_scope.

(* ================================================================== *)
(** * Python built-ins *)

Module Py.

(** [sub in s] on strings. *)
Fixpoint contains (sub s : string) : bool :=
  String.prefix sub s ||
  match s with
  | EmptyString => false
  | String _ t => contains sub t
  end.

(** [s.startswith(p)]. *)
Definition startswith (s p : string) : bool := String.prefix p s.

(** [str.isspace] on one ASCII character: tab, LF, VT, FF, CR, the four
    separators 0x1c-0x1f and the space. *)
Definition isspace (c : ascii) : bool :=
  let n := nat_of_ascii c in
  ((9 <=? n) && (n <=? 13) || (28 <=? n) && (n <=? 32))%nat.

Fixpoint lstrip (s : string) : string :=
  match s with
  | String c t => if isspace c then lstrip t else s
  | EmptyString => EmptyString
  end.

Definition reverse (s : string) : string :=
  string_of_list_ascii (rev (list_ascii_of_string s)).

Definition rstrip (s : string) : string := reverse (lstrip (reverse s)).

(** [s.strip()]. *)
Definition strip (s : string) : string := rstrip (lstrip s).

(** [sep.join(l)]. *)
Definition join (sep : string) (l : list string) : string :=
  String.concat sep l.

Fixpoint insert_sorted (x : string) (l : list string) : list string :=
  match l with
  | [] => [x]
  | y :: t => if String.leb x y then x :: l else y :: insert_sorted x t
  end.

(** [sorted(l)] on a list of strings (code-point order). *)
Definition sorted (l : list string) : list string :=
  fold_right insert_sorted [] l.

Definition mem (x : string) (l : list string) : bool :=
  existsb (String.eqb x) l.

(** A string of whitespace only (the empty one included). *)
Definition blank (s : string) : bool :=
  forallb isspace (list_ascii_of_string s).

End Py.

(* ================================================================== *)
(** * The pandas values and calls the script uses *)

Module Pandas.

(** A cell of the frame [read_csv] returns.  A column that holds text has
    dtype [object] and its cells are [Str]; a column in which every field
    is a number (or missing) has a numeric dtype and its cells are [Num],
    carried here by the text [astype(str)] gives for them.  [NaN] is the
    missing value of both. *)
Inductive cell : Type :=
| NaN
| Str (s : string)
| Num (s : string).

(** Instants are integers (nanoseconds since the epoch); [None] is NaT. *)
Definition Timestamp : Type := Z.

(** A float series: [None] is NaN. *)
Definition Series : Type := list (option Q).

(** The frame as [read_csv(header=[0,1])] returns it: two-level column
    keys and the rows of cells. *)
Record DataFrame : Type := mkDataFrame {
  columns : list (string * string);
  rows : list (list cell)
}.

(** What [pd.read_csv] does with the path: the two exceptions the script
    separates, or a frame. *)
Inductive read_csv_result : Type :=
| EmptyDataError
| ReadException (e : string)
| Frame (df : DataFrame).

Definition notna (c : cell) : bool :=
  match c with NaN => false | _ => true end.

(** [Series.astype(str)], one cell. *)
Definition astype_str (c : cell) : string :=
  match c with
  | NaN => "nan"
  | Str s => s
  | Num s => s
  end.

(** ** [pd.to_numeric(..., errors='coerce')] on one string

    Decimal literals: an optional sign, digits with an optional point (at
    least one digit), an optional exponent.  Anything else, the spelling
    ["nan"] and the empty string included, is NaN. *)

Definition digit_val (c : ascii) : option Z :=
  let n := Z.of_nat (nat_of_ascii c) in
  if (48 <=? n)%Z && (n <=? 57)%Z then Some (n - 48)%Z else None.

(** Consumes a run of digits: the value accumulated on [acc], the number of
    digits read, and the rest. *)
Fixpoint take_digits (s : string) (acc : Z) (n : Z) : Z * Z * string :=
  match s with
  | String c t =>
      match digit_val c with
      | Some d => take_digits t (10 * acc + d)%Z (n + 1)%Z
      | None => (acc, n, s)
      end
  | EmptyString => (acc, n, s)
  end.

(** An optional sign: [true] when negative. *)
Definition take_sign (s : string) : bool * string :=
  match s with
  | String "-" t => (true, t)
  | String "+" t => (false, t)
  | _ => (false, s)
  end.

Definition apply_sign (neg : bool) (z : Z) : Z :=
  if neg then (- z)%Z else z.

(** The exponent part, which must end the string. *)
Definition exponent (s : string) : option Z :=
  match s with
  | EmptyString => Some 0%Z
  | String c t =>
      if (Ascii.eqb c "e" || Ascii.eqb c "E")%bool then
        let (neg, t1) := take_sign t in
        match take_digits t1 0 0 with
        | (v, n, EmptyString) =>
            if (n =? 0)%Z then None else Some (apply_sign neg v)
        | _ => None
        end
      else None
  end.

(** [m * 10^e] as a reduced fraction. *)
Definition scale10 (m e : Z) : Q :=
  if (0 <=? e)%Z then Qred (inject_Z (m * 10 ^ e))
  else Qred (Qmake m (Z.to_pos (10 ^ (- e)))).

Definition to_numeric (s : string) : option Q :=
  let (neg, s1) := take_sign s in
  let '(ip, ni, s2) := take_digits s1 0 0 in
  let '(m, nf, s3) :=
    match s2 with
    | String "." t => take_digits t ip 0
    | _ => (ip, 0%Z, s2)
    end in
  if (ni + nf =? 0)%Z then None
  else match exponent s3 with
       | Some e => Some (scale10 (apply_sign neg m) (e - nf))
       | None => None
       end.

(** [Series.fillna(0)]. *)
Definition fillna0 (s : Series) : Series :=
  map (fun v => match v with Some q => Some q | None => Some 0 end) s.

(** [Series.sum()]: missing values are skipped. *)
Definition sum (s : Series) : Q :=
  fold_right (fun v acc => match v with Some q => q + acc | None => acc end) 0 s.

(** [a + b] on two series over the same index: NaN propagates. *)
Fixpoint add (a b : Series) : Series :=
  match a, b with
  | x :: a', y :: b' =>
      match x, y with
      | Some p, Some q => Some (p + q)
      | _, _ => None
      end :: add a' b'
  | _, _ => []
  end.

(** [x > 0] on floats. *)
Definition gt0 (x : Q) : bool := negb (Qle_bool x 0).

End Pandas.

(* ================================================================== *)
(** * The script *)

Module Vis.
Import Py Pandas.

(** ** What a run of the script leaves behind *)

(** How the process ends: the function returns, [sys.exit(code)] is called,
    or an exception nobody catches reaches the interpreter (traceback,
    exit status 1). *)
Inductive status : Type :=
| Returned
| SysExit (code : Z)
| Raised (exn : string).

Definition exit_code (st : status) : Z :=
  match st with
  | Returned => 0
  | SysExit c => c
  | Raised _ => 1
  end.

(** The calls made on matplotlib, in order. *)
Inductive plt_call : Type :=
| Figure (w h : Z)
| Plot (x : list (option Timestamp)) (y : Series)
       (label color linestyle : string)
| Title (s : string)
| Xlabel (s : string)
| Ylabel (s : string)
| Legend
| Grid
| MajorFormatter (fmt : string)
| MajorLocator (n : Z)
| Xticks (rotation : Z)
| TightLayout
| Show
| Savefig (path : string).

Record outcome : Type := mkOutcome {
  stdout : list string;
  plt : list plt_call;
  exit_status : status
}.

(** The cleaning stage either goes on with a value or stops the run with
    what was printed and how it ended. *)
Inductive step (A : Type) : Type :=
| Continue (a : A)
| Stop (out : list string) (st : status).
Arguments Continue {A} a.
Arguments Stop {A} out st.

Definition bind {A B : Type} (m : step A) (k : A -> step B) : step B :=
  match m with
  | Continue a => k a
  | Stop out st => Stop out st
  end.

Notation "x <- m ;; k" := (bind m (fun x => k))
  (at level 61, m at next level, right associativity).

(** [print(msg); sys.exit(1)]. *)
Definition die {A : Type} (msg : string) : step A := Stop [msg] (SysExit 1).

(** ** Lines 23-30: the header check and the relabelling of the first two
    columns.  [cols[0]] and [cols[1]] raise [IndexError] on a frame that is
    too narrow; [and] evaluates its right operand only when the left one
    holds. *)
Definition relabel (cols : list (string * string))
  : step (list (string * string)) :=
  match cols with
  | [] => Stop [] (Raised "IndexError")
  | c0 :: rest =>
      if contains "Date" (snd c0) then
        match rest with
        | [] => Stop [] (Raised "IndexError")
        | c1 :: rest' =>
            if contains "Time" (snd c1)
            then Continue (("Info", "Date") :: ("Info", "Time") :: rest')
            else die "Error: CSV header does not match expected format."
        end
      else die "Error: CSV header does not match expected format."
  end.

(** ** Line 35: [df[('Info','Date')] + ' ' + df[('Info','Time')]] *)

Definition column_at (i : nat) (rs : list (list cell)) : list cell :=
  map (fun r => nth i r NaN) rs.

Definition is_str (c : cell) : bool :=
  match c with Str _ => true | _ => false end.

Definition is_num (c : cell) : bool :=
  match c with Num _ => true | _ => false end.

(** An empty column and a column with text in it have dtype [object]. *)
Definition object_dtype (col : list cell) : bool :=
  match col with
  | [] => true
  | _ => existsb is_str col
  end.

(** [col + ' ']: a numeric column raises [TypeError]; on an [object]
    column the missing values stay missing (pandas adds [object] columns
    on the values that are present). *)
Definition add_sep (col : list cell) : option (list (option string)) :=
  if object_dtype col && forallb (fun c => negb (is_num c)) col
  then Some (map (fun c => match c with
                           | Str s => Some (s ++ " ")
                           | _ => None
                           end) col)
  else None.

(** [lhs + col] with [lhs] of dtype [object]: positions where both sides
    are present are added, a number there raises [TypeError]; the others
    are missing. *)
Fixpoint add_col (lhs : list (option string)) (col : list cell)
  : option (list (option string)) :=
  match lhs, col with
  | l :: lhs', c :: col' =>
      match add_col lhs' col' with
      | None => None
      | Some t =>
          match l, c with
          | Some _, Num _ => None
          | Some a, Str b => Some (Some (a ++ b) :: t)
          | _, _ => Some (None :: t)
          end
      end
  | _, _ => Some []
  end.

Definition date_time_strings (date time : list cell)
  : option (list (option string)) :=
  match add_sep date with
  | Some lhs => add_col lhs time
  | None => None
  end.

(** ** Lines 36-38 *)

(** The cells of a row at the columns a mask keeps. *)
Fixpoint select {A : Type} (mask : list bool) (l : list A) : list A :=
  match mask, l with
  | b :: m, x :: t => if b then x :: select m t else select m t
  | _, _ => []
  end.

(** [Index.unique()]: first occurrences, in order. *)
Fixpoint unique (l : list string) : list string :=
  match l with
  | [] => []
  | x :: t => x :: filter (fun y => negb (String.eqb x y)) (unique t)
  end.

(** The frame after line 38: the remaining column keys and the rows, each
    with its index entry. *)
Record RawTable : Type := mkRawTable {
  rt_columns : list (string * string);
  rt_rows : list (option Timestamp * list cell)
}.

Definition rt_index (t : RawTable) : list (option Timestamp) :=
  map fst (rt_rows t).

Definition not_info (k : string * string) : bool :=
  negb (String.eqb (fst k) "Info").

(** [dropna(axis=0, how='all')] keeps a row when one of its cells is
    present; the index is not looked at. *)
Definition has_value (r : option Timestamp * list cell) : bool :=
  existsb notna (snd r).

(** [df.empty]: an axis of length zero. *)
Definition empty (t : RawTable) : bool :=
  match rt_rows t, rt_columns t with
  | [], _ => true
  | _, [] => true
  | _, _ => false
  end.

Section WithDatetime.

(** [pd.to_datetime(series, errors='coerce')]: the parsed instants over the
    same index, NaT where a string does not parse. *)
Variable to_datetime : list (option string) -> list (option Timestamp).

(** Lines 34-41.  The only statement of the block that can raise is the
    concatenation; the text of the exception, which the message carries,
    is abbreviated to its class. *)
Definition clean (cols : list (string * string)) (rs : list (list cell))
  : step RawTable :=
  match date_time_strings (column_at 0 rs) (column_at 1 rs) with
  | None => Stop ["Error processing date/time: TypeError"] (SysExit 1)
  | Some strs =>
      let index := to_datetime strs in
      let mask := map not_info cols in
      let indexed := combine index (map (select mask) rs) in
      Continue (mkRawTable (select mask cols) (filter has_value indexed))
  end.

(** Line 47. *)
Definition sockets_of (t : RawTable) : list string :=
  sorted (filter (fun s => startswith s "SKT")
            (unique (map fst (rt_columns t)))).

(** Lines 23-50: the normalizer, up to the list of sockets. *)
Definition normalize (df : DataFrame) : step (RawTable * list string) :=
  cols <- relabel (columns df) ;;
  t <- clean cols (rows df) ;;
  if empty t then die "Error: No valid data after cleaning."
  else
    let sockets := sockets_of t in
    match sockets with
    | [] => die "Error: No 'SKT' socket columns found in CSV."
    | _ => Continue (t, sockets)
    end.

End WithDatetime.

(** ** Lines 61-82: the six series of a socket *)

(** [skt_df = df[skt]]: the columns whose outer key is [skt], named by
    their inner key, over the same index. *)
Record SocketFrame : Type := mkSocketFrame {
  sf_columns : list string;
  sf_rows : list (option Timestamp * list cell)
}.

Definition sf_index (f : SocketFrame) : list (option Timestamp) :=
  map fst (sf_rows f).

Definition socket_frame (t : RawTable) (skt : string) : SocketFrame :=
  let mask := map (fun k => String.eqb (fst k) skt) (rt_columns t) in
  mkSocketFrame (map snd (select mask (rt_columns t)))
                (map (fun r => (fst r, select mask (snd r))) (rt_rows t)).

Fixpoint position (c : string) (names : list string) : option nat :=
  match names with
  | [] => None
  | n :: t =>
      if String.eqb c n then Some O
      else match position c t with
           | Some i => Some (S i)
           | None => None
           end
  end.

(** [skt_df[c]], for a name the frame has. *)
Definition column (f : SocketFrame) (c : string) : list cell :=
  match position c (sf_columns f) with
  | Some i => map (fun r => nth i (snd r) NaN) (sf_rows f)
  | None => []
  end.

(** [pd.to_numeric(x.astype(str).str.strip(), errors='coerce')], one cell
    and a whole column. *)
Definition coerce (c : cell) : option Q :=
  to_numeric (strip (astype_str c)).

Definition to_numeric_col (col : list cell) : Series := map coerce col.

(** [DataFrame.sum(axis=1)] on [n] rows: per row, the sum of the values
    present. *)
Definition sum_axis1 (n : nat) (cols : list Series) : Series :=
  map (fun i => Some (sum (map (fun col => nth i col None) cols))) (seq 0 n).

(** The right-hand side of an assignment to a column of [plot_data]. *)
Inductive value : Type :=
| Scalar (q : Q)
| Values (s : Series).

(** [plot_data[name] = v]: a scalar is broadcast over the index; a series
    over the same index is stored as it is. *)
Definition setitem (index : list (option Timestamp)) (v : value) : Series :=
  match v with
  | Scalar q => repeat (Some q) (length index)
  | Values s => s
  end.

(** Lines 65-68. *)
Definition to_numeric_safe (skt_df : SocketFrame) (col_name : string)
  : Series :=
  if mem col_name (sf_columns skt_df)
  then fillna0 (to_numeric_col (column skt_df col_name))
  else repeat (Some 0) (length (sf_index skt_df)).

(** Lines 75-77. *)
Definition cxl_cols (skt_df : SocketFrame) : list string :=
  filter (fun c => startswith c "CXL.") (sf_columns skt_df).

Definition cxl_read_cols (skt_df : SocketFrame) : list string :=
  filter (fun c => contains "Read" c || contains "dv->hst" c)
         (cxl_cols skt_df).

Definition cxl_write_cols (skt_df : SocketFrame) : list string :=
  filter (fun c => contains "Write" c || contains "hst->dv" c)
         (cxl_cols skt_df).

(** The right-hand sides of lines 79 and 80. *)
Definition cxl_value (skt_df : SocketFrame) (cols : list string) : value :=
  match cols with
  | [] => Scalar 0
  | _ =>
      Values (fillna0
                (sum_axis1 (length (sf_index skt_df))
                   (map (fun c => to_numeric_col (column skt_df c)) cols)))
  end.

(** [plot_data]: the index of [skt_df] and the six columns. *)
Record PlotData : Type := mkPlotData {
  pd_index : list (option Timestamp);
  DRAM_Read : Series;
  DRAM_Write : Series;
  PMM_Read : Series;
  PMM_Write : Series;
  CXL_Read : Series;
  CXL_Write : Series
}.

(** The body of the first loop. *)
Definition plot_data (t : RawTable) (skt : string) : PlotData :=
  let skt_df := socket_frame t skt in
  let index := sf_index skt_df in
  mkPlotData index
    (setitem index (Values (to_numeric_safe skt_df "Mem Read (MB/s)")))
    (setitem index (Values (to_numeric_safe skt_df "Mem Write (MB/s)")))
    (setitem index (Values (to_numeric_safe skt_df "PMM_Read (MB/s)")))
    (setitem index (Values (to_numeric_safe skt_df "PMM_Write (MB/s)")))
    (setitem index (cxl_value skt_df (cxl_read_cols skt_df)))
    (setitem index (cxl_value skt_df (cxl_write_cols skt_df))).

(** [all_skt_data]: the dictionary, as the list of its items in insertion
    order. *)
Definition all_skt_data (t : RawTable) (sockets : list string)
  : list (string * PlotData) :=
  map (fun skt => (skt, plot_data t skt)) sockets.

Fixpoint getitem (d : list (string * PlotData)) (k : string)
  : option PlotData :=
  match d with
  | [] => None
  | (k', v) :: rest => if String.eqb k k' then Some v else getitem rest k
  end.

(** ** Lines 56-57 and 84-101: the lines of a socket *)

Inductive tier : Type := DRAM | PMM | CXL.
Inductive kind : Type := Read | Write | Total.

Definition tier_name (t : tier) : string :=
  match t with DRAM => "DRAM" | PMM => "PMM" | CXL => "CXL" end.

Definition kind_name (k : kind) : string :=
  match k with Read => "Read" | Write => "Write" | Total => "Total" end.

Definition type_colors (t : tier) : string :=
  match t with
  | DRAM => "tab:red"
  | PMM => "tab:orange"
  | CXL => "tab:green"
  end.

Definition type_styles (k : kind) : string :=
  match k with
  | Read => "-"
  | Write => "--"
  | Total => "solid"
  end.

(** [plt.plot(data.index, y, label=f'{skt} T K', color=type_colors['T'],
    linestyle=type_styles['K'])]. *)
Definition line (data : PlotData) (skt : string) (t : tier) (k : kind)
  (y : Series) : plt_call :=
  Plot (pd_index data) y
       (skt ++ " " ++ tier_name t ++ " " ++ kind_name k)
       (type_colors t) (type_styles k).

(** The read and the write column of a tier. *)
Definition tier_read (t : tier) (data : PlotData) : Series :=
  match t with
  | DRAM => DRAM_Read data
  | PMM => PMM_Read data
  | CXL => CXL_Read data
  end.

Definition tier_write (t : tier) (data : PlotData) : Series :=
  match t with
  | DRAM => DRAM_Write data
  | PMM => PMM_Write data
  | CXL => CXL_Write data
  end.

(** The tests of lines 89, 91, 96 and 99:
    [data['T_Read'].sum() + data['T_Write'].sum() > 0]. *)
Definition tier_sum (t : tier) (data : PlotData) : Q :=
  sum (tier_read t data) + sum (tier_write t data).

Definition gate (t : tier) (data : PlotData) : bool :=
  gt0 (tier_sum t data).

(** The body of the second loop. *)
Definition plot_socket (mode skt : string) (data : PlotData)
  : list plt_call :=
  if String.eqb mode "total" then
    [line data skt DRAM Total (add (DRAM_Read data) (DRAM_Write data))]
    ++ (if gate PMM data
        then [line data skt PMM Total (add (PMM_Read data) (PMM_Write data))]
        else [])
    ++ (if gate CXL data
        then [line data skt CXL Total (add (CXL_Read data) (CXL_Write data))]
        else [])
  else
    [line data skt DRAM Read (DRAM_Read data);
     line data skt DRAM Write (DRAM_Write data)]
    ++ (if gate PMM data
        then [line data skt PMM Read (PMM_Read data);
              line data skt PMM Write (PMM_Write data)]
        else [])
    ++ (if gate CXL data
        then [line data skt CXL Read (CXL_Read data);
              line data skt CXL Write (CXL_Write data)]
        else []).

(** Lines 84-101.  Every socket is a key of the dictionary
    ([getitem_all_skt_data] below), so the lookup does not fail. *)
Definition plot_all (mode : string) (d : list (string * PlotData))
  (sockets : list string) : list plt_call :=
  flat_map (fun skt =>
              match getitem d skt with
              | Some data => plot_socket mode skt data
              | None => []
              end) sockets.

(** Lines 103-117. *)
Definition decorate : list plt_call :=
  [Title "Memory Bandwidth per Socket";
   Xlabel "Time";
   Ylabel "Bandwidth (MB/s)";
   Legend;
   Grid;
   MajorFormatter "%H:%M:%S";
   MajorLocator 10;
   Xticks 30;
   TightLayout;
   Show;
   Savefig "bandwidth.png"].

Definition is_plot (c : plt_call) : bool :=
  match c with Plot _ _ _ _ _ => true | _ => false end.

(** A line of the given tier: the tiers are told apart by colour. *)
Definition is_tier_line (t : tier) (c : plt_call) : bool :=
  match c with
  | Plot _ _ _ color _ => String.eqb color (type_colors t)
  | _ => false
  end.

Definition tier_lines (t : tier) (calls : list plt_call) : nat :=
  length (filter (is_tier_line t) calls).

(** The legend: the labels of the lines, in plotting order. *)
Definition labels (calls : list plt_call) : list string :=
  flat_map (fun c => match c with
                     | Plot _ _ label _ _ => [label]
                     | _ => []
                     end) calls.

(** A chart is produced when the figure is shown or saved. *)
Definition chart_produced (o : outcome) : bool :=
  existsb (fun c => match c with Show | Savefig _ => true | _ => false end)
          (plt o).

Section Script.

Variable to_datetime : list (option string) -> list (option Timestamp).

(** Lines 11-117.  The argument is what [pd.read_csv] does with the path. *)
Definition parse_bandwidth_csv (file : read_csv_result) (mode : string)
  : outcome :=
  match file with
  | EmptyDataError =>
      mkOutcome ["Error: CSV file contains no data."] [] (SysExit 1)
  | ReadException e =>
      mkOutcome ["Error parsing CSV: " ++ e] [] (SysExit 1)
  | Frame df =>
      match normalize to_datetime df with
      | Stop out st => mkOutcome out [] st
      | Continue (t, sockets) =>
          mkOutcome
            ["Sockets detected: " ++ join ", " sockets; "Mode: " ++ mode]
            (Figure 16 10
               :: plot_all mode (all_skt_data t sockets) sockets ++ decorate)
            Returned
      end
  end.

(** Lines 119-124.  [argparse] has the path (required) and the mode, which
    defaults to [rw]; a mode outside [choices] ends the run in
    [parser.error] with status 2, before the function is called. *)
Definition main (file : read_csv_result) (mode_arg : option string)
  : outcome :=
  match mode_arg with
  | None => parse_bandwidth_csv file "rw"
  | Some m =>
      if mem m ["rw"; "total"] then parse_bandwidth_csv file m
      else mkOutcome [] [] (SysExit 2)
  end.

End Script.

(** ** Vocabulary of the properties *)

(** Frames as [read_csv] builds them, on which the embedding is exact: the
    rows are as wide as the header, a column does not mix text and
    numbers, and the keys the script creates ([Info], [Datetime]) are not
    keys of the file. *)
Definition rectangular (df : DataFrame) : bool :=
  forallb (fun r => Nat.eqb (length r) (length (columns df))) (rows df).

Definition homogeneous (df : DataFrame) : bool :=
  forallb (fun i => let col := column_at i (rows df) in
                    negb (existsb is_str col && existsb is_num col))
          (seq 0 (length (columns df))).

Definition fresh_keys (df : DataFrame) : bool :=
  forallb (fun k => negb (String.eqb (fst k) "Info")
                    && negb (String.eqb (fst k) "Datetime"))
          (columns df).

Definition well_formed (df : DataFrame) : bool :=
  rectangular df && homogeneous df && fresh_keys df.

(** Instants compare when both are present. *)
Definition ts_lt (a b : option Timestamp) : bool :=
  match a, b with
  | Some x, Some y => (x <? y)%Z
  | _, _ => false
  end.

(** Each entry of the index is earlier than the next. *)
Fixpoint strictly_increasing (l : list (option Timestamp)) : bool :=
  match l with
  | a :: (b :: _) as t => ts_lt a b && strictly_increasing t
  | _ => true
  end.

(** Each string is at most the next, in code-point order. *)
Definition ascending : list string -> Prop :=
  Sorted (fun a b => String.leb a b = true).

(** A series of zeros. *)
Definition all_zero (s : Series) : Prop :=
  Forall (fun v => match v with Some q => q == 0 | None => False end) s.


(** A series with no missing value. *)
Definition fully_defined (s : Series) : Prop :=
  Forall (fun v => v <> None) s.



End Vis.

(* ================================================================== *)
(** * A reference instance of [pd.to_datetime]

    The theorems below hold for every date parser.  The concrete runs use
    this one: it reads [YYYY-MM-DD HH:MM:SS], the format of the pcm-memory
    exports, and gives NaT on everything else. *)

Module Dates.
Import Pandas.

(** Exactly [n] digits. *)
Fixpoint take_n (n : nat) (s : string) (acc : Z) : option (Z * string) :=
  match n with
  | O => Some (acc, s)
  | S k =>
      match s with
      | String c t =>
          match digit_val c with
          | Some d => take_n k t (10 * acc + d)%Z
          | None => None
          end
      | EmptyString => None
      end
  end.

Definition expect (c : ascii) (s : string) : option string :=
  match s with
  | String c' t => if Ascii.eqb c c' then Some t else None
  | EmptyString => None
  end.

Definition leap (y : Z) : bool :=
  ((y mod 4 =? 0) && (negb (y mod 100 =? 0) || (y mod 400 =? 0)))%Z.

Definition days_in_month (y m : Z) : Z :=
  if (m =? 2)%Z then (if leap y then 29 else 28)%Z
  else if ((m =? 4) || (m =? 6) || (m =? 9) || (m =? 11))%Z then 30%Z
  else 31%Z.

(** Days since 1970-01-01 in the proleptic Gregorian calendar. *)
Definition days_from_civil (y m d : Z) : Z :=
  let y' := (if m <=? 2 then y - 1 else y)%Z in
  let era := (y' / 400)%Z in
  let yoe := (y' - era * 400)%Z in
  let mp := (if 2 <? m then m - 3 else m + 9)%Z in
  let doy := ((153 * mp + 2) / 5 + d - 1)%Z in
  let doe := (yoe * 365 + yoe / 4 - yoe / 100 + doy)%Z in
  (era * 146097 + doe - 719468)%Z.

Definition iso_datetime (s : string) : option Timestamp :=
  match take_n 4 s 0 with None => None | Some (y, s) =>
  match expect "-" s with None => None | Some s =>
  match take_n 2 s 0 with None => None | Some (m, s) =>
  match expect "-" s with None => None | Some s =>
  match take_n 2 s 0 with None => None | Some (d, s) =>
  match expect " " s with None => None | Some s =>
  match take_n 2 s 0 with None => None | Some (hh, s) =>
  match expect ":" s with None => None | Some s =>
  match take_n 2 s 0 with None => None | Some (mm, s) =>
  match expect ":" s with None => None | Some s =>
  match take_n 2 s 0 with None => None | Some (ss, s) =>
  match s with
  | EmptyString =>
      if ((1 <=? m) && (m <=? 12) && (1 <=? d) && (d <=? days_in_month y m)
          && (hh <? 24) && (mm <? 60) && (ss <? 60))%Z
      then Some ((((days_from_civil y m d * 24 + hh) * 60 + mm) * 60 + ss)
                 * 1000000000)%Z
      else None
  | _ => None
  end end end end end end end end end end end end.

Definition to_datetime (l : list (option string)) : list (option Timestamp) :=
  map (fun o => match o with
                | Some s => iso_datetime s
                | None => None
                end) l.

End Dates.

(* ================================================================== *)
(** * Sample frames *)

Module Samples.
Import Pandas.

(** The end-to-end scenario of the specification: one socket, the two DRAM
    columns, two rows. *)
Definition two_rows : DataFrame :=
  mkDataFrame
    [("Unnamed: 0_level_0", "Date"); ("Unnamed: 1_level_0", "Time");
     ("SKT0", "Mem Read (MB/s)"); ("SKT0", "Mem Write (MB/s)")]
    [[Str "2024-01-01"; Str "00:00:01"; Num "100"; Num "50"];
     [Str "2024-01-01"; Str "00:00:02"; Num "200"; Num "100"]].

(** The same rows, the later one first. *)
Definition two_rows_swapped : DataFrame :=
  mkDataFrame (columns two_rows) (rev (rows two_rows)).

(** One row whose date and time are not a date and a time, with metric
    values. *)
Definition bad_timestamp : DataFrame :=
  mkDataFrame (columns two_rows)
    [[Str "xx"; Str "yy"; Num "100"; Num "50"]].

(** Every metric field is empty. *)
Definition no_metrics : DataFrame :=
  mkDataFrame (columns two_rows)
    [[Str "2024-01-01"; Str "00:00:01"; NaN; NaN]].

(** The first two columns are not a date and a time. *)
Definition bad_header : DataFrame :=
  mkDataFrame
    [("Unnamed: 0_level_0", "Day"); ("Unnamed: 1_level_0", "Clock");
     ("SKT0", "Mem Read (MB/s)")]
    [[Str "2024-01-01"; Str "00:00:01"; Num "100"]].

(** A socket with PMM and CXL columns; the PMM readings cancel out. *)
Definition tiers : DataFrame :=
  mkDataFrame
    [("Unnamed: 0_level_0", "Date"); ("Unnamed: 1_level_0", "Time");
     ("SKT0", "Mem Read (MB/s)"); ("SKT0", "PMM_Read (MB/s)");
     ("SKT0", "PMM_Write (MB/s)"); ("SKT0", "CXL.mem Read (MB/s)");
     ("SKT1", "PMM_Read (MB/s)"); ("SKT1", "PMM_Write (MB/s)")]
    [[Str "2024-01-01"; Str "00:00:01";
      Num "100"; Num "-5"; Num "0"; Num "7"; Num "3"; Num "0"];
     [Str "2024-01-01"; Str "00:00:02";
      Num "200"; Num "5"; Num "0"; Num "8"; Num "4"; Num "1.5"]].

(** A file of another tool: no outer key starts with [SKT]. *)
Definition no_sockets : DataFrame :=
  mkDataFrame
    [("Unnamed: 0_level_0", "Date"); ("Unnamed: 1_level_0", "Time");
     ("CPU0", "Mem Read (MB/s)")]
    [[Str "2024-01-01"; Str "00:00:01"; Num "100"]].

(** The table the normalizer builds from a sample. *)
Definition table (df : DataFrame) : Vis.RawTable :=
  match Vis.normalize Dates.to_datetime df with
  | Vis.Continue (t, _) => t
  | Vis.Stop _ _ => Vis.mkRawTable [] []
  end.

(** A column of text fields to coerce.  ([read_csv] itself reads the
    fields [N/A] and the empty field as missing cells, like the last
    one.) *)
Definition text_cells : Vis.SocketFrame :=
  Vis.mkSocketFrame ["Mem Read (MB/s)"]
    [(None, [Str " 123.4 "]); (None, [Str "N/A"]); (None, [Str ""]);
     (None, [Str "   "]); (None, [NaN])].

End Samples.

(* ================================================================== *)
(** * The normalizer (lines 23-50) *)

Import Py Pandas Vis.

Section Normalizer.

Variable to_datetime : list (option string) -> list (option Timestamp).

(** The metric cells of the rows: what is left of each row once the
    [Info] columns are dropped. *)
Definition metric_rows (cols : list (string * string))
  (rs : list (list cell)) : list (list cell) :=
  map (select (map not_info cols)) rs.

(** What a successful run of the normalizer went through. *)
Lemma normalize_inv df t sockets :
  normalize to_datetime df = Continue (t, sockets) ->
  exists cols strs,
    relabel (columns df) = Continue cols /\
    date_time_strings (column_at 0 (rows df)) (column_at 1 (rows df))
      = Some strs /\
    rt_columns t = select (map not_info cols) cols /\
    rt_rows t = filter has_value
                  (combine (to_datetime strs) (metric_rows cols (rows df))) /\
    sockets = sockets_of t /\
    sockets <> [].
Proof.
  unfold normalize, bind, clean, die. intros H.
  destruct (relabel (columns df)) as [cols|] eqn:Hr; [|discriminate].
  destruct (date_time_strings _ _) as [strs|] eqn:Hd; [|discriminate].
  destruct (empty _) eqn:He; [discriminate|].
  destruct (sockets_of _) as [|s0 ss] eqn:Hs; [discriminate|].
  injection H as <- <-.
  exists cols, strs. cbn [rt_columns rt_rows].
  repeat split; try reflexivity.
  - symmetry. exact Hs.
  - discriminate.
Qed.

Lemma filter_length_le {A : Type} (p : A -> bool) (l : list A) :
  (length (filter p l) <= length l)%nat.
Proof.
  induction l as [|x l IH]; cbn; [lia|].
  destruct (p x); cbn; lia.
Qed.

Lemma combine_length_le_r {A B : Type} (a : list A) (b : list B) :
  (length (combine a b) <= length b)%nat.
Proof.
  rewrite length_combine. apply Nat.le_min_r.
Qed.

(** ** Time order *)

Definition earlier (a b : option Timestamp) : Prop := ts_lt a b = true.

Lemma earlier_trans a b c : earlier a b -> earlier b c -> earlier a c.
Proof.
  unfold earlier, ts_lt.
  destruct a as [x|], b as [y|], c as [z|]; try discriminate.
  rewrite !Z.ltb_lt. lia.
Qed.

Lemma strictly_increasing_Sorted l :
  strictly_increasing l = true <-> Sorted earlier l.
Proof.
  induction l as [|a [|b l] IH].
  - split; [constructor | reflexivity].
  - split; [repeat constructor | reflexivity].
  - change (strictly_increasing (a :: b :: l))
      with (ts_lt a b && strictly_increasing (b :: l)).
    rewrite andb_true_iff, IH. split.
    + intros [Hab Hs]. constructor; [exact Hs | constructor; exact Hab].
    + intros Hs. inversion Hs as [|? ? Hs' Hhd]; subst.
      inversion Hhd; subst. split; assumption.
Qed.

Lemma strictly_increasing_StronglySorted l :
  strictly_increasing l = true <-> StronglySorted earlier l.
Proof.
  rewrite strictly_increasing_Sorted. split.
  - apply Sorted_StronglySorted. intros a b c. apply earlier_trans.
  - apply StronglySorted_Sorted.
Qed.

(** Dropping rows keeps the order of the index entries that remain. *)
Lemma StronglySorted_fst_filter_combine {B : Type}
  (p : option Timestamp * B -> bool) (idx : list (option Timestamp)) :
  StronglySorted earlier idx ->
  forall b : list B,
    StronglySorted earlier (map fst (filter p (combine idx b))).
Proof.
  induction 1 as [|x idx Hs IH Hall]; intros b.
  - constructor.
  - destruct b as [|y b]; [constructor|].
    cbn [combine filter].
    assert (Hrest : Forall (earlier x)
                      (map fst (filter p (combine idx b)))).
    { rewrite Forall_forall in *. intros ts Hin.
      apply in_map_iff in Hin. destruct Hin as [[ts' c] [<- Hin]].
      apply filter_In in Hin. destruct Hin as [Hin _].
      apply Hall. eapply in_combine_l. exact Hin. }
    destruct (p (x, y)); cbn [map fst].
    + constructor; [apply IH | exact Hrest].
    + apply IH.
Qed.

Lemma filter_has_value_nil (idx : list (option Timestamp))
  (rs : list (list cell)) :
  Forall (fun r => existsb notna r = false) rs ->
  filter has_value (combine idx rs) = [].
Proof.
  intros H. revert idx.
  induction H as [|r rs Hr _ IH]; intros [|i idx]; try reflexivity.
  cbn [combine filter]. unfold has_value at 1. cbn [snd].
  rewrite Hr. apply IH.
Qed.

End Normalizer.

Section NormalizerClaims.

Variable to_datetime : list (option string) -> list (option Timestamp).

(** C1 (as amended).  A row leaves the table only when every one of its
    metric cells is missing; its index entry is not consulted.  So a row
    whose date and time do not parse, and whose index entry is therefore
    NaT, stays in the table as soon as one of its metric cells is present. *)
Theorem rows_are_dropped_by_metric_cells_only df t sockets :
  normalize to_datetime df = Continue (t, sockets) ->
  exists cols strs,
    relabel (columns df) = Continue cols /\
    date_time_strings (column_at 0 (rows df)) (column_at 1 (rows df))
      = Some strs /\
    rt_rows t = filter has_value
                  (combine (to_datetime strs) (metric_rows cols (rows df))) /\
    forall ts cells,
      In (ts, cells)
         (combine (to_datetime strs) (metric_rows cols (rows df))) ->
      (In (ts, cells) (rt_rows t) <-> existsb notna cells = true).
Proof.
  intros H.
  destruct (normalize_inv to_datetime df t sockets H)
    as (cols & strs & Hr & Hd & _ & Hrows & _).
  exists cols, strs. repeat split; try assumption.
  - intros Hin. rewrite Hrows in Hin. apply filter_In in Hin.
    exact (proj2 Hin).
  - intros Hv. rewrite Hrows. apply filter_In. split; assumption.
Qed.

(** C2 (as amended).  The table has at most as many rows as the frame, and
    its rows are the rows of the frame that have a metric value, in the
    order of the file: nothing is sorted and no duplicate is removed.  The
    index is strictly increasing whenever the parsed instants of the file
    are. *)
Theorem rows_are_kept_in_file_order df t sockets :
  normalize to_datetime df = Continue (t, sockets) ->
  (length (rt_rows t) <= length (rows df))%nat /\
  exists cols strs,
    relabel (columns df) = Continue cols /\
    date_time_strings (column_at 0 (rows df)) (column_at 1 (rows df))
      = Some strs /\
    rt_rows t = filter has_value
                  (combine (to_datetime strs) (metric_rows cols (rows df))) /\
    (strictly_increasing (to_datetime strs) = true ->
     strictly_increasing (rt_index t) = true).
Proof.
  intros H.
  destruct (normalize_inv to_datetime df t sockets H)
    as (cols & strs & Hr & Hd & _ & Hrows & _).
  split.
  - rewrite Hrows.
    eapply Nat.le_trans; [apply filter_length_le|].
    eapply Nat.le_trans; [apply combine_length_le_r|].
    unfold metric_rows. rewrite length_map. apply Nat.le_refl.
  - exists cols, strs. repeat split; try assumption.
    intros Hinc. unfold rt_index. rewrite Hrows.
    apply strictly_increasing_StronglySorted.
    apply StronglySorted_fst_filter_combine.
    apply strictly_increasing_StronglySorted. exact Hinc.
Qed.

(** C4 (as amended).  When no row of the frame has a metric value, the
    table is empty after cleaning and the run ends there: one line of
    diagnosis, status 1, no socket is looked for and matplotlib is not
    called. *)
Theorem no_metric_value_is_fatal df mode cols strs :
  relabel (columns df) = Continue cols ->
  date_time_strings (column_at 0 (rows df)) (column_at 1 (rows df))
    = Some strs ->
  Forall (fun r => existsb notna r = false) (metric_rows cols (rows df)) ->
  parse_bandwidth_csv to_datetime (Frame df) mode
  = mkOutcome ["Error: No valid data after cleaning."] [] (SysExit 1).
Proof.
  intros Hr Hd Hall.
  unfold parse_bandwidth_csv, normalize, bind, clean.
  rewrite Hr, Hd.
  fold (metric_rows cols (rows df)).
  rewrite (filter_has_value_nil _ _ Hall).
  reflexivity.
Qed.

(** C8.  When the inner keys of the first two columns do not both carry
    their marker ([Date] in the first, [Time] in the second), the run ends
    with the header message and status 1, and matplotlib is never called:
    no chart is shown or saved. *)
Theorem malformed_header_is_fatal c0 c1 rest rs mode :
  contains "Date" (snd c0) && contains "Time" (snd c1) = false ->
  let o := parse_bandwidth_csv to_datetime
             (Frame (mkDataFrame (c0 :: c1 :: rest) rs)) mode in
  o = mkOutcome ["Error: CSV header does not match expected format."] []
                (SysExit 1) /\
  exit_code (exit_status o) <> 0%Z /\
  chart_produced o = false.
Proof.
  intros Hm o.
  assert (Ho : o = mkOutcome
                     ["Error: CSV header does not match expected format."]
                     [] (SysExit 1)).
  { unfold o, parse_bandwidth_csv, normalize, bind, relabel.
    cbn [columns].
    apply andb_false_iff in Hm. destruct Hm as [Hm | Hm].
    - rewrite Hm. reflexivity.
    - rewrite Hm. destruct (contains "Date" (snd c0)); reflexivity. }
  rewrite Ho. repeat split. cbn. discriminate.
Qed.

(** A header that does not get through the check ends the run with a
    non-zero status and without a chart, on narrow frames too. *)
Lemma header_failure_is_fatal df mode out st :
  relabel (columns df) = Stop out st ->
  let o := parse_bandwidth_csv to_datetime (Frame df) mode in
  o = mkOutcome out [] st /\ exit_code st <> 0%Z.
Proof.
  intros H o. split.
  - unfold o, parse_bandwidth_csv, normalize, bind. rewrite H. reflexivity.
  - revert H. unfold relabel, die.
    destruct (columns df) as [|c0 [|c1 rest]];
      repeat match goal with
             | |- context [if ?b then _ else _] => destruct b
             end;
      intros H; first [discriminate H | injection H as _ <-; discriminate].
Qed.

End NormalizerClaims.

(** ** Concrete runs of the normalizer *)

(** C1, the claim as stated fails: the date and time of the only row of
    [bad_timestamp] read ["xx yy"], which is no instant, and the row is in
    the table, under a missing index entry. *)
Lemma unparseable_row_is_kept :
  date_time_strings (column_at 0 (rows Samples.bad_timestamp))
                    (column_at 1 (rows Samples.bad_timestamp))
  = Some [Some "xx yy"] /\
  Dates.to_datetime [Some "xx yy"] = [None] /\
  normalize Dates.to_datetime Samples.bad_timestamp
  = Continue (mkRawTable
                [("SKT0", "Mem Read (MB/s)"); ("SKT0", "Mem Write (MB/s)")]
                [(None, [Num "100"; Num "50"])],
              ["SKT0"]).
Proof. repeat split. Qed.

Lemma rows_are_dropped_by_metric_cells_only_witness :
  exists cols strs,
    relabel (columns Samples.bad_timestamp) = Continue cols /\
    date_time_strings (column_at 0 (rows Samples.bad_timestamp))
                      (column_at 1 (rows Samples.bad_timestamp))
      = Some strs /\
    rt_rows (mkRawTable
               [("SKT0", "Mem Read (MB/s)"); ("SKT0", "Mem Write (MB/s)")]
               [(None, [Num "100"; Num "50"])])
    = filter has_value
        (combine (Dates.to_datetime strs)
                 (metric_rows cols (rows Samples.bad_timestamp))) /\
    forall ts cells,
      In (ts, cells)
         (combine (Dates.to_datetime strs)
                  (metric_rows cols (rows Samples.bad_timestamp))) ->
      (In (ts, cells)
          (rt_rows (mkRawTable
                      [("SKT0", "Mem Read (MB/s)");
                       ("SKT0", "Mem Write (MB/s)")]
                      [(None, [Num "100"; Num "50"])]))
       <-> existsb notna cells = true).
Proof.
  apply (rows_are_dropped_by_metric_cells_only Dates.to_datetime
           Samples.bad_timestamp _ ["SKT0"]).
  reflexivity.
Defined.

(** C2, the claim as stated fails: the two rows of [two_rows_swapped] are
    in the file with the later instant first, and the index of the table
    has them in that order. *)
Lemma index_follows_file_order :
  exists t,
    normalize Dates.to_datetime Samples.two_rows_swapped
    = Continue (t, ["SKT0"]) /\
    rt_index t = [Some 1704067202000000000%Z; Some 1704067201000000000%Z] /\
    strictly_increasing (rt_index t) = false.
Proof. eexists. repeat split. Qed.

Lemma rows_are_kept_in_file_order_witness :
  exists t,
    normalize Dates.to_datetime Samples.two_rows = Continue (t, ["SKT0"]) /\
    (length (rt_rows t) <= length (rows Samples.two_rows))%nat /\
    strictly_increasing (rt_index t) = true.
Proof.
  eexists. split; [reflexivity|].
  destruct (rows_are_kept_in_file_order Dates.to_datetime Samples.two_rows
              _ ["SKT0"] eq_refl)
    as (Hlen & cols & strs & Hr & Hd & Hrows & Hinc).
  split; [exact Hlen|].
  apply Hinc.
  injection Hd as <-. reflexivity.
Defined.

(** C4, the claim as stated fails: no row of [bad_timestamp] has an
    instant, and the run goes on to the sockets and the chart. *)
Lemma unparseable_timestamps_still_chart :
  date_time_strings (column_at 0 (rows Samples.bad_timestamp))
                    (column_at 1 (rows Samples.bad_timestamp))
  = Some [Some "xx yy"] /\
  Dates.to_datetime [Some "xx yy"] = [None] /\
  let o := parse_bandwidth_csv Dates.to_datetime
             (Frame Samples.bad_timestamp) "rw" in
  stdout o = ["Sockets detected: SKT0"; "Mode: rw"] /\
  exit_status o = Returned /\
  chart_produced o = true.
Proof. repeat split. Qed.

Lemma no_metric_value_is_fatal_witness :
  parse_bandwidth_csv Dates.to_datetime (Frame Samples.no_metrics) "rw"
  = mkOutcome ["Error: No valid data after cleaning."] [] (SysExit 1).
Proof.
  apply (no_metric_value_is_fatal Dates.to_datetime Samples.no_metrics "rw"
           [("Info", "Date"); ("Info", "Time");
            ("SKT0", "Mem Read (MB/s)"); ("SKT0", "Mem Write (MB/s)")]
           [Some "2024-01-01 00:00:01"]).
  - reflexivity.
  - reflexivity.
  - repeat constructor.
Defined.

Lemma malformed_header_is_fatal_witness :
  let o := parse_bandwidth_csv Dates.to_datetime
             (Frame Samples.bad_header) "rw" in
  o = mkOutcome ["Error: CSV header does not match expected format."] []
                (SysExit 1) /\
  exit_code (exit_status o) <> 0%Z /\
  chart_produced o = false.
Proof.
  apply (malformed_header_is_fatal Dates.to_datetime
           ("Unnamed: 0_level_0", "Day") ("Unnamed: 1_level_0", "Clock")
           [("SKT0", "Mem Read (MB/s)")]
           [[Str "2024-01-01"; Str "00:00:01"; Num "100"]] "rw").
  reflexivity.
Defined.

(* ================================================================== *)
(** * The series extractor (lines 61-82) *)

Lemma sf_index_socket_frame t skt :
  sf_index (socket_frame t skt) = rt_index t.
Proof.
  unfold sf_index, socket_frame, rt_index. cbn [sf_rows].
  rewrite map_map. reflexivity.
Qed.

Lemma mem_position c names :
  mem c names = true -> exists i, position c names = Some i.
Proof.
  unfold mem. induction names as [|n names IH]; cbn; [discriminate|].
  destruct (String.eqb c n); [intros _; eexists; reflexivity|].
  cbn. intros H. destruct (IH H) as [i ->]. eexists; reflexivity.
Qed.

Lemma length_column f c :
  mem c (sf_columns f) = true ->
  length (column f c) = length (sf_index f).
Proof.
  intros H. destruct (mem_position _ _ H) as [i Hi].
  unfold column, sf_index. rewrite Hi, !length_map. reflexivity.
Qed.

Lemma length_fillna0 s : length (fillna0 s) = length s.
Proof. apply length_map. Qed.

Lemma fully_defined_fillna0 s : fully_defined (fillna0 s).
Proof.
  unfold fully_defined, fillna0. apply Forall_forall. intros v Hin.
  apply in_map_iff in Hin. destruct Hin as [[q|] [<- _]]; discriminate.
Qed.

Lemma fully_defined_repeat q n : fully_defined (repeat (Some q) n).
Proof.
  apply Forall_forall. intros v Hin.
  apply repeat_spec in Hin. subst. discriminate.
Qed.

Lemma length_sum_axis1 n cols : length (sum_axis1 n cols) = n.
Proof. unfold sum_axis1. rewrite length_map. apply length_seq. Qed.

Lemma length_to_numeric_safe f c :
  length (to_numeric_safe f c) = length (sf_index f).
Proof.
  unfold to_numeric_safe. destruct (mem c (sf_columns f)) eqn:Hm.
  - unfold to_numeric_col. rewrite length_fillna0, length_map.
    apply length_column. exact Hm.
  - apply repeat_length.
Qed.

Lemma fully_defined_to_numeric_safe f c :
  fully_defined (to_numeric_safe f c).
Proof.
  unfold to_numeric_safe. destruct (mem c (sf_columns f)).
  - apply fully_defined_fillna0.
  - apply fully_defined_repeat.
Qed.

Lemma length_cxl f cols :
  length (setitem (sf_index f) (cxl_value f cols)) = length (sf_index f).
Proof.
  destruct cols as [|c cols]; cbn [cxl_value setitem].
  - apply repeat_length.
  - rewrite length_fillna0. apply length_sum_axis1.
Qed.

Lemma fully_defined_cxl f cols :
  fully_defined (setitem (sf_index f) (cxl_value f cols)).
Proof.
  destruct cols as [|c cols]; cbn [cxl_value setitem].
  - apply fully_defined_repeat.
  - apply fully_defined_fillna0.
Qed.

(** C5.  A metric cell is trimmed and then parsed: the text [" 123.4 "]
    becomes the number 123.4; ["N/A"], the empty text, blanks and a missing
    cell become 0. *)
Theorem numeric_coercion_examples :
  (exists q, coerce (Str " 123.4 ") = Some q /\ q == 123.4) /\
  fillna0 [coerce (Str "N/A")] = [Some 0] /\
  fillna0 [coerce (Str "")] = [Some 0] /\
  to_numeric_safe Samples.text_cells "Mem Read (MB/s)"
  = [Some (617 # 5); Some 0; Some 0; Some 0; Some 0] /\
  617 # 5 == 123.4.
Proof.
  repeat split.
  exists (617 # 5). split; reflexivity.
Qed.

(** The trimmed-empty case, whatever the blanks. *)
Lemma blank_cell_is_zero s :
  strip s = "" -> fillna0 (to_numeric_col [Str s]) = [Some 0].
Proof.
  intros H. unfold to_numeric_col, coerce. cbn [map astype_str].
  rewrite H. reflexivity.
Qed.

(** C6.  A direct metric whose column the socket does not have gives the
    series of zeros over the index of the socket, and so do both CXL
    series when the socket has no CXL column. *)
Theorem missing_sources_are_zero_series t skt :
  let f := socket_frame t skt in
  let d := plot_data t skt in
  let zeros := repeat (Some 0) (length (pd_index d)) in
  pd_index d = rt_index t /\
  (forall c, mem c (sf_columns f) = false -> to_numeric_safe f c = zeros) /\
  (mem "Mem Read (MB/s)" (sf_columns f) = false -> DRAM_Read d = zeros) /\
  (mem "Mem Write (MB/s)" (sf_columns f) = false -> DRAM_Write d = zeros) /\
  (mem "PMM_Read (MB/s)" (sf_columns f) = false -> PMM_Read d = zeros) /\
  (mem "PMM_Write (MB/s)" (sf_columns f) = false -> PMM_Write d = zeros) /\
  (cxl_cols f = [] -> CXL_Read d = zeros /\ CXL_Write d = zeros).
Proof.
  intros f d zeros.
  assert (Hz : forall c, mem c (sf_columns f) = false ->
                         to_numeric_safe f c = zeros).
  { intros c Hc. unfold to_numeric_safe. rewrite Hc. reflexivity. }
  split; [apply sf_index_socket_frame|].
  split; [exact Hz|].
  do 4 (split; [intros Hc; exact (Hz _ Hc)|]).
  intros Hc. split.
  - unfold d, plot_data. cbn [CXL_Read].
    unfold cxl_read_cols. fold f. rewrite Hc. reflexivity.
  - unfold d, plot_data. cbn [CXL_Write].
    unfold cxl_write_cols. fold f. rewrite Hc. reflexivity.
Qed.

(** C7.  The six series of a socket are over the index of the table, one
    value per entry of it, and none of the values is missing. *)
Theorem derived_series_are_total t skt :
  let d := plot_data t skt in
  pd_index d = rt_index t /\
  Forall (fun s => length s = length (rt_index t) /\ fully_defined s)
    [DRAM_Read d; DRAM_Write d; PMM_Read d; PMM_Write d;
     CXL_Read d; CXL_Write d].
Proof.
  intros d. split; [apply sf_index_socket_frame|].
  rewrite <- (sf_index_socket_frame t skt).
  unfold d, plot_data.
  cbn [DRAM_Read DRAM_Write PMM_Read PMM_Write CXL_Read CXL_Write].
  repeat constructor;
    first [ apply length_to_numeric_safe
          | apply fully_defined_to_numeric_safe
          | apply length_cxl
          | apply fully_defined_cxl ].
Qed.

Lemma missing_sources_are_zero_series_witness :
  let d := plot_data (Samples.table Samples.two_rows) "SKT0" in
  PMM_Read d = [Some 0; Some 0] /\ PMM_Write d = [Some 0; Some 0] /\
  CXL_Read d = [Some 0; Some 0] /\ CXL_Write d = [Some 0; Some 0] /\
  length (pd_index d) = 2%nat.
Proof.
  destruct (missing_sources_are_zero_series
              (Samples.table Samples.two_rows) "SKT0")
    as (_ & _ & _ & _ & Hr & Hw & Hc).
  split; [exact (Hr eq_refl)|].
  split; [exact (Hw eq_refl)|].
  destruct (Hc eq_refl) as [Hcr Hcw].
  split; [exact Hcr|]. split; [exact Hcw|]. reflexivity.
Defined.

(* ================================================================== *)
(** * The chart builder (lines 84-117) *)

Lemma gt0_true_iff x : gt0 x = true <-> 0 < x.
Proof.
  unfold gt0. rewrite negb_true_iff. split.
  - intros H. apply Qnot_le_lt. intros Hle.
    apply Qle_bool_iff in Hle. congruence.
  - intros H. destruct (Qle_bool x 0) eqn:E; [|reflexivity].
    apply Qle_bool_iff in E. exfalso. exact (Qlt_not_le _ _ H E).
Qed.

Lemma gt0_false_iff x : gt0 x = false <-> ~ 0 < x.
Proof.
  rewrite <- gt0_true_iff. destruct (gt0 x); split; intros H;
    try reflexivity; try discriminate; try (intros H'; discriminate).
  exfalso. apply H. reflexivity.
Qed.

Lemma sum_all_zero s : all_zero s -> sum s == 0.
Proof.
  induction 1 as [|[q|] s Hq _ IH]; cbn.
  - reflexivity.
  - rewrite Hq, IH. reflexivity.
  - contradiction.
Qed.






(** The number of lines a socket gets in a tier other than DRAM. *)
Lemma tier_lines_plot_socket mode skt data t :
  t <> DRAM ->
  tier_lines t (plot_socket mode skt data)
  = if gate t data
    then (if String.eqb mode "total" then 1%nat else 2%nat)
    else 0%nat.
Proof.
  intros Ht. unfold plot_socket, tier_lines.
  destruct t; [contradiction| |];
    destruct (String.eqb mode "total");
    destruct (gate PMM data); destruct (gate CXL data); reflexivity.
Qed.

(** Two DRAM lines in every mode but [total], one in [total]. *)
Lemma dram_lines_plot_socket mode skt data :
  tier_lines DRAM (plot_socket mode skt data)
  = if String.eqb mode "total" then 1%nat else 2%nat.
Proof.
  unfold plot_socket, tier_lines.
  destruct (String.eqb mode "total");
    destruct (gate PMM data); destruct (gate CXL data); reflexivity.
Qed.

Lemma getitem_all_skt_data t sockets skt :
  In skt sockets ->
  getitem (all_skt_data t sockets) skt = Some (plot_data t skt).
Proof.
  unfold all_skt_data.
  induction sockets as [|s sockets IH]; intros Hin; [contradiction|].
  cbn [map getitem]. destruct (String.eqb skt s) eqn:E.
  - apply String.eqb_eq in E. subst. reflexivity.
  - destruct Hin as [-> | Hin]; [|exact (IH Hin)].
    rewrite String.eqb_refl in E. discriminate.
Qed.

Lemma flat_map_agree {A B : Type} (f g : A -> list B) (l : list A) :
  (forall a, In a l -> f a = g a) -> flat_map f l = flat_map g l.
Proof.
  induction l as [|a l IH]; intros H; [reflexivity|].
  cbn. rewrite (H a (or_introl eq_refl)), IH; [reflexivity|].
  intros b Hb. apply H. right. exact Hb.
Qed.

(** The second loop plots, socket after socket, the series the first loop
    stored for it. *)
Lemma plot_all_all_skt_data mode t sockets :
  plot_all mode (all_skt_data t sockets) sockets
  = flat_map (fun skt => plot_socket mode skt (plot_data t skt)) sockets.
Proof.
  unfold plot_all. apply flat_map_agree.
  intros skt Hin. rewrite (getitem_all_skt_data _ _ _ Hin). reflexivity.
Qed.

Lemma plot_socket_not_total mode skt data :
  String.eqb mode "total" = false ->
  plot_socket mode skt data = plot_socket "rw" skt data.
Proof.
  intros H. unfold plot_socket. rewrite H. reflexivity.
Qed.

Lemma plot_all_not_total mode d sockets :
  String.eqb mode "total" = false ->
  plot_all mode d sockets = plot_all "rw" d sockets.
Proof.
  intros H. unfold plot_all. apply flat_map_agree.
  intros skt _. destruct (getitem d skt); [|reflexivity].
  apply plot_socket_not_total. exact H.
Qed.



Section Modes.

Variable to_datetime : list (option string) -> list (option Timestamp).

(** The normalizer stops a run only through [sys.exit] or an exception. *)
Lemma normalize_stop_status df out st :
  normalize to_datetime df = Stop out st -> st <> Returned.
Proof.
  unfold normalize, bind, clean, relabel, die.
  destruct (columns df) as [|c0 [|c1 rest]];
    repeat match goal with
           | |- context [if ?b then _ else _] => destruct b
           | |- context [match date_time_strings ?a ?b with _ => _ end] =>
               destruct (date_time_strings a b)
           | |- context [match sockets_of ?t with _ => _ end] =>
               destruct (sockets_of t)
           end;
    intros H; first [discriminate H | injection H as _ <-; discriminate].
Qed.

(** The calls a run that gets through the normalizer makes. *)
Lemma plots_of_a_run df mode t sockets :
  normalize to_datetime df = Continue (t, sockets) ->
  plt (parse_bandwidth_csv to_datetime (Frame df) mode)
  = Figure 16 10
      :: flat_map (fun skt => plot_socket mode skt (plot_data t skt)) sockets
      ++ decorate.
Proof.
  intros H. unfold parse_bandwidth_csv. rewrite H. cbn [plt].
  rewrite plot_all_all_skt_data. reflexivity.
Qed.

(** C10 (as amended).  With a mode other than [total] the run ends as with
    [rw] and makes the same calls on matplotlib; a run that fails prints
    the same; a run that reaches the chart prints the same socket line and
    then the mode it was given.  Other modes are refused by [main], which
    ends with status 2 without calling the function. *)
Theorem other_modes_chart_as_rw file mode :
  mode <> "total" ->
  let o := parse_bandwidth_csv to_datetime file mode in
  let r := parse_bandwidth_csv to_datetime file "rw" in
  plt o = plt r /\
  exit_status o = exit_status r /\
  (exit_status o <> Returned -> o = r) /\
  (exit_status o = Returned ->
   exists l, stdout o = [l; "Mode: " ++ mode] /\
             stdout r = [l; "Mode: rw"]) /\
  (forall m, mem m ["rw"; "total"] = false ->
             main to_datetime file (Some m) = mkOutcome [] [] (SysExit 2)).
Proof.
  intros Hm o r. apply String.eqb_neq in Hm.
  assert (Hmain : forall m, mem m ["rw"; "total"] = false ->
            main to_datetime file (Some m) = mkOutcome [] [] (SysExit 2)).
  { intros m Hmem. unfold main. rewrite Hmem. reflexivity. }
  unfold o, r, parse_bandwidth_csv.
  destruct file as [| e | df].
  - repeat split; try reflexivity; try exact Hmain. discriminate.
  - repeat split; try reflexivity; try exact Hmain. discriminate.
  - destruct (normalize to_datetime df) as [[t sockets] | out st] eqn:Hn;
      cbn [plt exit_status stdout].
    + rewrite (plot_all_not_total mode _ _ Hm).
      repeat split; try reflexivity; try exact Hmain.
      * intros H. exfalso. apply H. reflexivity.
      * intros _. eexists. split; reflexivity.
    + repeat split; try reflexivity; try exact Hmain.
      intros H. exfalso.
      exact (normalize_stop_status df out st Hn H).
Qed.

End Modes.

(** ** Concrete runs of the chart builder *)

Lemma samples_well_formed :
  forallb well_formed
    [Samples.two_rows; Samples.two_rows_swapped; Samples.bad_timestamp;
     Samples.no_metrics; Samples.bad_header; Samples.tiers] = true.
Proof. reflexivity. Qed.




(** C10, the claim as stated fails: the function prints the mode it was
    given, so the run with mode ["x"] is not the run with mode ["rw"]. *)
Lemma mode_is_echoed :
  stdout (parse_bandwidth_csv Dates.to_datetime (Frame Samples.two_rows) "x")
  = ["Sockets detected: SKT0"; "Mode: x"] /\
  stdout (parse_bandwidth_csv Dates.to_datetime (Frame Samples.two_rows) "rw")
  = ["Sockets detected: SKT0"; "Mode: rw"] /\
  parse_bandwidth_csv Dates.to_datetime (Frame Samples.two_rows) "x"
  <> parse_bandwidth_csv Dates.to_datetime (Frame Samples.two_rows) "rw".
Proof.
  repeat split. intros H. apply (f_equal stdout) in H. discriminate H.
Qed.

Lemma other_modes_chart_as_rw_witness :
  let o := parse_bandwidth_csv Dates.to_datetime
             (Frame Samples.two_rows) "x" in
  let r := parse_bandwidth_csv Dates.to_datetime
             (Frame Samples.two_rows) "rw" in
  plt o = plt r /\ exit_status o = exit_status r.
Proof.
  intros o r.
  assert (Hm : "x" <> "total") by discriminate.
  destruct (other_modes_chart_as_rw Dates.to_datetime
              (Frame Samples.two_rows) "x" Hm) as (Hp & Hs & _).
  split; [exact Hp | exact Hs].
Defined.

(* ================================================================== *)
(** * Further properties of the normalizer *)

(** ** [sorted] and [unique] *)

Lemma insert_sorted_perm x l : Permutation (insert_sorted x l) (x :: l).
Proof.
  induction l as [|y l IH]; cbn; [reflexivity|].
  destruct (String.leb x y); [reflexivity|].
  rewrite IH. apply perm_swap.
Qed.

Lemma sorted_perm l : Permutation (sorted l) l.
Proof.
  induction l as [|x l IH]; cbn; [reflexivity|].
  rewrite insert_sorted_perm. constructor. exact IH.
Qed.

Lemma leb_false_flip x y : String.leb x y = false -> String.leb y x = true.
Proof.
  intros H. destruct (String.leb_total x y) as [E | E]; [congruence | exact E].
Qed.

Lemma insert_sorted_ascending x l :
  ascending l -> ascending (insert_sorted x l).
Proof.
  unfold ascending. induction l as [|y l IH]; intros Hs; cbn.
  - repeat constructor.
  - destruct (String.leb x y) eqn:E.
    + constructor; [exact Hs | constructor; exact E].
    + inversion Hs as [|? ? Hs' Hhd]; subst.
      constructor; [apply IH; exact Hs'|].
      destruct l as [|z l]; cbn.
      * constructor. apply leb_false_flip. exact E.
      * destruct (String.leb x z); constructor.
        -- apply leb_false_flip. exact E.
        -- inversion Hhd; subst. assumption.
Qed.

Lemma sorted_ascending l : ascending (sorted l).
Proof.
  induction l as [|x l IH]; cbn.
  - constructor.
  - apply insert_sorted_ascending. exact IH.
Qed.

Lemma In_unique x l : In x (unique l) <-> In x l.
Proof.
  induction l as [|a l IH]; cbn; [reflexivity|].
  rewrite filter_In, IH. split.
  - intros [H | [H _]]; [left | right]; assumption.
  - intros [H | H]; [left; exact H|].
    destruct (String.eqb a x) eqn:E.
    + left. apply String.eqb_eq. exact E.
    + right. split; [exact H | reflexivity].
Qed.

Lemma NoDup_unique l : NoDup (unique l).
Proof.
  induction l as [|a l IH]; cbn; constructor.
  - rewrite filter_In. intros [_ H].
    rewrite String.eqb_refl in H. discriminate.
  - apply NoDup_filter. exact IH.
Qed.

(** ** Masks *)

Lemma select_map_filter {A : Type} (p : A -> bool) (l : list A) :
  select (map p l) l = filter p l.
Proof.
  induction l as [|x l IH]; cbn; [reflexivity|].
  rewrite IH. reflexivity.
Qed.

Lemma length_select_map {A B : Type} (p : A -> bool) (l : list A)
  (r : list B) :
  length r = length l ->
  length (select (map p l) r) = length (filter p l).
Proof.
  revert r. induction l as [|x l IH]; intros [|y r] H; try discriminate;
    [reflexivity|].
  cbn. injection H as H. destruct (p x); cbn; rewrite (IH r H); reflexivity.
Qed.

Lemma select_nonempty {A B : Type} (p : A -> bool) (l : list A)
  (r : list B) :
  select (map p l) r <> [] -> filter p l <> [].
Proof.
  revert r. induction l as [|x l IH]; intros [|y r]; cbn;
    try (intros H; exfalso; apply H; reflexivity).
  destruct (p x); [discriminate | apply IH].
Qed.

Lemma relabel_inv cols' cols :
  relabel cols' = Continue cols ->
  exists c0 c1 rest,
    cols' = c0 :: c1 :: rest /\
    contains "Date" (snd c0) = true /\
    contains "Time" (snd c1) = true /\
    cols = ("Info", "Date") :: ("Info", "Time") :: rest.
Proof.
  unfold relabel, die.
  destruct cols' as [|c0 [|c1 rest]]; try discriminate.
  - destruct (contains "Date" (snd c0)); discriminate.
  - destruct (contains "Date" (snd c0)) eqn:Hd; [|discriminate].
    destruct (contains "Time" (snd c1)) eqn:Ht; [|discriminate].
    intros H. injection H as <-.
    exists c0, c1, rest. repeat split; assumption.
Qed.

Lemma prefix_app s b : String.prefix s (s ++ b) = true.
Proof.
  induction s as [|c s IH]; cbn; [destruct b; reflexivity|].
  destruct (ascii_dec c c) as [_ | H]; [exact IH | contradiction].
Qed.

Lemma contains_app sub a b : contains sub (a ++ sub ++ b) = true.
Proof.
  induction a as [|c a IH].
  - cbn [append]. destruct (sub ++ b) eqn:E; cbn [contains];
      rewrite <- E, prefix_app; reflexivity.
  - cbn [append contains]. rewrite IH. apply orb_true_r.
Qed.

Lemma In_sockets_of t s :
  In s (sockets_of t)
  <-> In s (map fst (rt_columns t)) /\ startswith s "SKT" = true.
Proof.
  unfold sockets_of. split.
  - intros H. apply (Permutation_in _ (sorted_perm _)) in H.
    apply filter_In in H. rewrite In_unique in H. exact H.
  - intros H. apply (Permutation_in _ (Permutation_sym (sorted_perm _))).
    apply filter_In. rewrite In_unique. exact H.
Qed.

(** X2.  The list of sockets is in ascending order, has no duplicate, and holds
    exactly the outer keys of the table that start with [SKT]. *)
Theorem sockets_are_the_sorted_distinct_skt_keys t :
  ascending (sockets_of t) /\
  NoDup (sockets_of t) /\
  forall s, In s (sockets_of t)
            <-> In s (map fst (rt_columns t)) /\ startswith s "SKT" = true.
Proof.
  split; [apply sorted_ascending|]. split; [|apply In_sockets_of].
  unfold sockets_of.
  apply (Permutation_NoDup (Permutation_sym (sorted_perm _))).
  apply NoDup_filter. apply NoDup_unique.
Qed.

Lemma In_select {A : Type} (mask : list bool) (l : list A) x :
  In x (select mask l) -> In x l.
Proof.
  revert l. induction mask as [|b mask IH]; intros [|y l]; cbn;
    try contradiction.
  destruct b; cbn; intros H.
  - destruct H as [H | H]; [left; exact H | right; exact (IH _ H)].
  - right. exact (IH _ H).
Qed.

Section MoreNormalizer.

Variable to_datetime : list (option string) -> list (option Timestamp).

(** X3.  A file with metric values in which no outer key starts with [SKT]
    ends the run with the socket message and status 1, matplotlib not
    called. *)
Theorem no_socket_column_is_fatal df mode cols strs :
  relabel (columns df) = Continue cols ->
  date_time_strings (column_at 0 (rows df)) (column_at 1 (rows df))
    = Some strs ->
  existsb has_value
    (combine (to_datetime strs) (metric_rows cols (rows df))) = true ->
  Forall (fun k => startswith (fst k) "SKT" = false) cols ->
  parse_bandwidth_csv to_datetime (Frame df) mode
  = mkOutcome ["Error: No 'SKT' socket columns found in CSV."] []
              (SysExit 1).
Proof.
  intros Hr Hd Hv Hk.
  unfold parse_bandwidth_csv, normalize, bind, clean. rewrite Hr, Hd.
  fold (metric_rows cols (rows df)).
  set (t := mkRawTable _ _).
  assert (Hs : sockets_of t = []).
  { destruct (sockets_of t) as [|s l] eqn:E; [reflexivity|]. exfalso.
    assert (Hin : In s (sockets_of t)) by (rewrite E; left; reflexivity).
    apply In_sockets_of in Hin. destruct Hin as [Hin Hskt].
    apply in_map_iff in Hin. destruct Hin as [k [<- Hin]].
    unfold t in Hin. cbn [rt_columns] in Hin. apply In_select in Hin.
    rewrite Forall_forall in Hk. rewrite (Hk _ Hin) in Hskt. discriminate. }
  assert (He : empty t = false).
  { apply existsb_exists in Hv. destruct Hv as [[i r] [Hin Hr']].
    assert (Hrows : rt_rows t <> []).
    { unfold t. cbn [rt_rows]. intros E.
      assert (Hf : In (i, r) (filter has_value
                     (combine (to_datetime strs)
                              (metric_rows cols (rows df)))))
        by (apply filter_In; split; assumption).
      rewrite E in Hf. contradiction. }
    assert (Hcols : rt_columns t <> []).
    { unfold t. cbn [rt_columns]. rewrite select_map_filter.
      apply in_combine_r in Hin. unfold metric_rows in Hin.
      apply in_map_iff in Hin. destruct Hin as [r0 [<- _]].
      apply (select_nonempty not_info cols r0).
      unfold has_value in Hr'. cbn [snd] in Hr'.
      intros E. rewrite E in Hr'. discriminate. }
    unfold empty. destruct (rt_rows t); [contradiction|].
    destruct (rt_columns t); [contradiction|]. reflexivity. }
  rewrite He, Hs. reflexivity.
Qed.

(** X4.  The table has the columns of the file from the third on, in order and
    without those keyed [Info]; on a rectangular frame every row of the
    table has one cell per column of the table. *)
Theorem table_keeps_the_metric_columns df t sockets :
  normalize to_datetime df = Continue (t, sockets) ->
  exists c0 c1 rest,
    columns df = c0 :: c1 :: rest /\
    rt_columns t = filter not_info rest /\
    (rectangular df = true ->
     Forall (fun r => length (snd r) = length (rt_columns t)) (rt_rows t)).
Proof.
  intros H.
  destruct (normalize_inv to_datetime df t sockets H)
    as (cols & strs & Hr & _ & Hcols & Hrows & _).
  destruct (relabel_inv _ _ Hr) as (c0 & c1 & rest & Hdf & _ & _ & ->).
  exists c0, c1, rest.
  assert (Hc : rt_columns t = filter not_info rest).
  { rewrite Hcols, select_map_filter. reflexivity. }
  repeat split; try assumption.
  intros Hrect. apply Forall_forall. intros [i r] Hin.
  rewrite Hrows in Hin. apply filter_In in Hin. destruct Hin as [Hin _].
  apply in_combine_r in Hin. unfold metric_rows in Hin.
  apply in_map_iff in Hin. destruct Hin as [r0 [<- Hin0]].
  cbn [snd]. rewrite Hcols, select_map_filter.
  apply length_select_map.
  unfold rectangular in Hrect. rewrite forallb_forall in Hrect.
  specialize (Hrect _ Hin0). apply Nat.eqb_eq in Hrect.
  rewrite Hrect, Hdf. reflexivity.
Qed.

End MoreNormalizer.

(** X5.  The header check is a substring test on the inner keys of the first
    two columns: wherever [Date] and [Time] occur in them, and whatever
    the outer keys are, the two columns become [('Info','Date')] and
    [('Info','Time')] and the others are left as they are. *)
Theorem header_markers_match_anywhere o0 a b o1 c d rest :
  relabel ((o0, a ++ "Date" ++ b) :: (o1, c ++ "Time" ++ d) :: rest)
  = Continue (("Info", "Date") :: ("Info", "Time") :: rest).
Proof.
  unfold relabel. cbn [snd]. rewrite !contains_app. reflexivity.
Qed.

Lemma no_socket_column_is_fatal_witness :
  parse_bandwidth_csv Dates.to_datetime (Frame Samples.no_sockets) "rw"
  = mkOutcome ["Error: No 'SKT' socket columns found in CSV."] []
              (SysExit 1).
Proof.
  apply (no_socket_column_is_fatal Dates.to_datetime Samples.no_sockets "rw"
           [("Info", "Date"); ("Info", "Time"); ("CPU0", "Mem Read (MB/s)")]
           [Some "2024-01-01 00:00:01"]).
  - reflexivity.
  - reflexivity.
  - reflexivity.
  - repeat constructor.
Defined.

Lemma table_keeps_the_metric_columns_witness :
  exists c0 c1 rest,
    columns Samples.two_rows = c0 :: c1 :: rest /\
    rt_columns (Samples.table Samples.two_rows) = filter not_info rest /\
    Forall (fun r => length (snd r)
                     = length (rt_columns (Samples.table Samples.two_rows)))
           (rt_rows (Samples.table Samples.two_rows)).
Proof.
  destruct (table_keeps_the_metric_columns Dates.to_datetime
              Samples.two_rows (Samples.table Samples.two_rows) ["SKT0"]
              eq_refl)
    as (c0 & c1 & rest & Hc & Ht & Hrect).
  exists c0, c1, rest.
  split; [exact Hc|]. split; [exact Ht|]. apply Hrect. reflexivity.
Defined.

(* ================================================================== *)
(** * Further properties of the chart *)

Lemma filter_all {A : Type} (p : A -> bool) (l : list A) :
  forallb p l = true -> filter p l = l.
Proof.
  induction l as [|x l IH]; cbn; [reflexivity|].
  destruct (p x); [|discriminate]. intros H. rewrite (IH H). reflexivity.
Qed.

Lemma plot_socket_is_plot mode skt data :
  forallb is_plot (plot_socket mode skt data) = true.
Proof.
  unfold plot_socket.
  destruct (String.eqb mode "total");
    destruct (gate PMM data); destruct (gate CXL data); reflexivity.
Qed.

Lemma plot_all_is_plot mode d sockets :
  forallb is_plot (plot_all mode d sockets) = true.
Proof.
  unfold plot_all. induction sockets as [|s sockets IH]; [reflexivity|].
  cbn [flat_map]. rewrite forallb_app, IH, andb_true_r.
  destruct (getitem d s); [apply plot_socket_is_plot | reflexivity].
Qed.

Lemma length_plot_socket_rw_total mode skt data :
  String.eqb mode "total" = false ->
  length (plot_socket mode skt data)
  = (2 * length (plot_socket "total" skt data))%nat.
Proof.
  intros H. unfold plot_socket. rewrite H. cbn [String.eqb Ascii.eqb].
  change (String.eqb "total" "total") with true. cbn iota.
  destruct (gate PMM data); destruct (gate CXL data); reflexivity.
Qed.

Lemma length_plot_all_rw_total mode d sockets :
  String.eqb mode "total" = false ->
  length (plot_all mode d sockets)
  = (2 * length (plot_all "total" d sockets))%nat.
Proof.
  intros H. unfold plot_all.
  induction sockets as [|s sockets IH]; [reflexivity|].
  cbn [flat_map]. rewrite !length_app, IH.
  destruct (getitem d s).
  - rewrite (length_plot_socket_rw_total _ _ _ H). lia.
  - cbn [length]. lia.
Qed.

Section Runs.

Variable to_datetime : list (option string) -> list (option Timestamp).

Lemma normalize_stop_shape df out st :
  normalize to_datetime df = Stop out st ->
  exit_code st = 1%Z /\ (length out <= 1)%nat.
Proof.
  unfold normalize, bind, clean, relabel, die.
  destruct (columns df) as [|c0 [|c1 rest]];
    repeat match goal with
           | |- context [if ?b then _ else _] => destruct b
           | |- context [match date_time_strings ?a ?b with _ => _ end] =>
               destruct (date_time_strings a b)
           | |- context [match sockets_of ?t with _ => _ end] =>
               destruct (sockets_of t)
           end;
    intros H; first [discriminate H
                    | injection H as <- <-; split; cbn; lia].
Qed.

(** X1.  A run is all or nothing.  Either it returns, having opened the figure,
    drawn lines and nothing else, decorated, shown and then saved the
    chart, and printed two lines; or it ends with status 1 and at most one
    line of diagnosis, matplotlib not called at all. *)
Theorem a_run_charts_fully_or_not_at_all file mode :
  let o := parse_bandwidth_csv to_datetime file mode in
  (exit_status o = Returned /\
   length (stdout o) = 2%nat /\
   exists lines,
     plt o = Figure 16 10 :: lines ++ decorate /\
     forallb is_plot lines = true)
  \/
  (exit_code (exit_status o) = 1%Z /\
   (length (stdout o) <= 1)%nat /\
   plt o = []).
Proof.
  intros o. unfold o, parse_bandwidth_csv.
  destruct file as [| e | df].
  - right. repeat split. cbn. lia.
  - right. repeat split. cbn. lia.
  - destruct (normalize to_datetime df) as [[t sockets] | out st] eqn:Hn.
    + left. repeat split. eexists. split; [reflexivity|].
      apply plot_all_is_plot.
    + right. destruct (normalize_stop_shape df out st Hn) as [Hc Hl].
      repeat split; assumption.
Qed.

(** X6.  Whatever the file, a mode other than [total] draws exactly twice as
    many lines as [total]. *)
Theorem rw_draws_twice_the_lines_of_total file mode :
  mode <> "total" ->
  length (filter is_plot (plt (parse_bandwidth_csv to_datetime file mode)))
  = (2 * length (filter is_plot
                   (plt (parse_bandwidth_csv to_datetime file "total"))))%nat.
Proof.
  intros Hm. apply String.eqb_neq in Hm.
  unfold parse_bandwidth_csv. destruct file as [| e | df]; try reflexivity.
  destruct (normalize to_datetime df) as [[t sockets] | out st];
    [|reflexivity].
  cbn [plt filter is_plot]. rewrite !filter_app.
  change (filter is_plot decorate) with (@nil plt_call).
  rewrite !app_nil_r, !(filter_all _ _ (plot_all_is_plot _ _ _)).
  apply length_plot_all_rw_total. exact Hm.
Qed.

End Runs.

Lemma rw_draws_twice_the_lines_of_total_witness :
  length (filter is_plot
            (plt (parse_bandwidth_csv Dates.to_datetime
                    (Frame Samples.tiers) "rw"))) = 8%nat /\
  length (filter is_plot
            (plt (parse_bandwidth_csv Dates.to_datetime
                    (Frame Samples.tiers) "total"))) = 4%nat.
Proof.
  assert (Hm : "rw" <> "total") by discriminate.
  pose proof (rw_draws_twice_the_lines_of_total Dates.to_datetime
                (Frame Samples.tiers) "rw" Hm) as H.
  assert (Ht : length (filter is_plot
                 (plt (parse_bandwidth_csv Dates.to_datetime
                         (Frame Samples.tiers) "total"))) = 4%nat)
    by reflexivity.
  split; [|exact Ht]. rewrite H, Ht. reflexivity.
Defined.

(** ** The shape of the lines *)






Section Lines.

Variable to_datetime : list (option string) -> list (option Timestamp).


(** X8.  Every socket gets its DRAM line ([total]) or its two DRAM lines (the
    other modes) whatever the data; the legend has them in the order of
    the list of sockets. *)
Theorem dram_lines_follow_the_sockets df mode t sockets :
  normalize to_datetime df = Continue (t, sockets) ->
  labels (filter (is_tier_line DRAM)
            (plt (parse_bandwidth_csv to_datetime (Frame df) mode)))
  = flat_map (fun skt => if String.eqb mode "total"
                         then [skt ++ " DRAM Total"]
                         else [skt ++ " DRAM Read"; skt ++ " DRAM Write"])
             sockets.
Proof.
  intros H. rewrite (plots_of_a_run to_datetime df mode t sockets H).
  cbn [filter is_tier_line]. rewrite filter_app.
  change (filter (is_tier_line DRAM) decorate) with (@nil plt_call).
  rewrite app_nil_r. clear H.
  induction sockets as [|s sockets IH]; [reflexivity|].
  cbn [flat_map]. rewrite filter_app. unfold labels in *.
  rewrite flat_map_app, IH. f_equal.
  unfold plot_socket.
  destruct (String.eqb mode "total");
    destruct (gate PMM (plot_data t s));
    destruct (gate CXL (plot_data t s)); reflexivity.
Qed.

End Lines.

(** ** Tiers without data *)

Lemma all_zero_repeat n : all_zero (repeat (Some 0) n).
Proof.
  apply Forall_forall. intros v Hin. apply repeat_spec in Hin. subst.
  reflexivity.
Qed.

Lemma gate_zero_series tr data :
  all_zero (tier_read tr data) -> all_zero (tier_write tr data) ->
  gate tr data = false.
Proof.
  intros Hr Hw. apply gt0_false_iff. unfold tier_sum.
  rewrite (sum_all_zero _ Hr), (sum_all_zero _ Hw).
  intros H. revert H. apply Qlt_irrefl.
Qed.

(** X9.  A socket without the two PMM columns gets no PMM line, and a socket
    without any CXL column gets no CXL line, in every mode. *)
Theorem absent_tier_is_not_plotted t skt mode :
  let f := socket_frame t skt in
  let d := plot_data t skt in
  (mem "PMM_Read (MB/s)" (sf_columns f) = false ->
   mem "PMM_Write (MB/s)" (sf_columns f) = false ->
   tier_lines PMM (plot_socket mode skt d) = 0%nat) /\
  (cxl_cols f = [] ->
   tier_lines CXL (plot_socket mode skt d) = 0%nat).
Proof.
  intros f d. split.
  - intros Hr Hw.
    rewrite tier_lines_plot_socket by discriminate.
    rewrite gate_zero_series; [reflexivity| |];
      unfold d, plot_data; cbn [tier_read tier_write PMM_Read PMM_Write];
      unfold to_numeric_safe; fold f.
    + rewrite Hr. apply all_zero_repeat.
    + rewrite Hw. apply all_zero_repeat.
  - intros Hc.
    rewrite tier_lines_plot_socket by discriminate.
    rewrite gate_zero_series; [reflexivity| |];
      unfold d, plot_data; cbn [tier_read tier_write CXL_Read CXL_Write];
      unfold cxl_read_cols, cxl_write_cols; fold f; rewrite Hc;
      apply all_zero_repeat.
Qed.



Lemma dram_lines_follow_the_sockets_witness :
  labels (filter (is_tier_line DRAM)
            (plt (parse_bandwidth_csv Dates.to_datetime
                    (Frame Samples.tiers) "total")))
  = ["SKT0 DRAM Total"; "SKT1 DRAM Total"].
Proof.
  apply (dram_lines_follow_the_sockets Dates.to_datetime Samples.tiers
           "total" (Samples.table Samples.tiers) ["SKT0"; "SKT1"]).
  reflexivity.
Defined.

Lemma absent_tier_is_not_plotted_witness :
  let d := plot_data (Samples.table Samples.two_rows) "SKT0" in
  tier_lines PMM (plot_socket "rw" "SKT0" d) = 0%nat /\
  tier_lines CXL (plot_socket "rw" "SKT0" d) = 0%nat.
Proof.
  destruct (absent_tier_is_not_plotted
              (Samples.table Samples.two_rows) "SKT0" "rw") as [Hp Hc].
  split; [apply Hp; reflexivity | apply Hc; reflexivity].
Defined.


(* ================================================================== *)
(** * Blanks around a field *)

Lemma list_ascii_of_string_app a b :
  list_ascii_of_string (a ++ b)
  = (list_ascii_of_string a ++ list_ascii_of_string b)%list.
Proof.
  induction a as [|c a IH]; cbn; [reflexivity|]. rewrite IH. reflexivity.
Qed.

Lemma string_of_list_ascii_app x y :
  string_of_list_ascii (x ++ y)%list
  = string_of_list_ascii x ++ string_of_list_ascii y.
Proof.
  induction x as [|c x IH]; cbn; [reflexivity|]. rewrite IH. reflexivity.
Qed.

Lemma reverse_app a b : reverse (a ++ b) = reverse b ++ reverse a.
Proof.
  unfold reverse.
  rewrite list_ascii_of_string_app, rev_app_distr, string_of_list_ascii_app.
  reflexivity.
Qed.

Lemma reverse_involutive s : reverse (reverse s) = s.
Proof.
  unfold reverse.
  rewrite list_ascii_of_string_of_list_ascii, rev_involutive.
  apply string_of_list_ascii_of_string.
Qed.

Lemma blank_reverse b : blank b = true -> blank (reverse b) = true.
Proof.
  unfold blank, reverse. rewrite list_ascii_of_string_of_list_ascii.
  rewrite !forallb_forall. intros H c Hin. apply H. apply in_rev. exact Hin.
Qed.

Lemma lstrip_blank_app a s : blank a = true -> lstrip (a ++ s) = lstrip s.
Proof.
  unfold blank. induction a as [|c a IH]; cbn; [reflexivity|].
  destruct (isspace c); [|discriminate]. exact IH.
Qed.

Lemma lstrip_blank b : blank b = true -> lstrip b = "".
Proof.
  unfold blank. induction b as [|c b IH]; cbn; [reflexivity|].
  destruct (isspace c); [exact IH | discriminate].
Qed.

Lemma rstrip_app_blank s b : blank b = true -> rstrip (s ++ b) = rstrip s.
Proof.
  intros H. unfold rstrip. rewrite reverse_app.
  rewrite (lstrip_blank_app _ _ (blank_reverse b H)). reflexivity.
Qed.

Lemma strip_app_blank s b : blank b = true -> strip (s ++ b) = strip s.
Proof.
  intros H. unfold strip. induction s as [|c s IH].
  - cbn [append]. rewrite (lstrip_blank b H). reflexivity.
  - cbn [append lstrip]. destruct (isspace c); [exact IH|].
    apply (rstrip_app_blank (String c s) b H).
Qed.

(** X11.  Whitespace around a field does not change the number it is given:
    the cell is coerced as the bare field is. *)
Theorem padding_does_not_change_a_cell a s b :
  blank a = true -> blank b = true ->
  coerce (Str (a ++ s ++ b)) = coerce (Str s) /\
  coerce (Num (a ++ s ++ b)) = coerce (Num s).
Proof.
  intros Ha Hb.
  assert (H : strip (a ++ s ++ b) = strip s).
  { unfold strip at 1. rewrite (lstrip_blank_app a _ Ha).
    exact (strip_app_blank s b Hb). }
  unfold coerce. cbn [astype_str]. rewrite H. split; reflexivity.
Qed.

Lemma padding_does_not_change_a_cell_witness :
  coerce (Str "  12.5 ") = coerce (Str "12.5").
Proof.
  exact (proj1 (padding_does_not_change_a_cell "  " "12.5" " "
                  eq_refl eq_refl)).
Defined.

(* ================================================================== *)
(** * The command line (lines 119-124) *)

Section CommandLine.

Variable to_datetime : list (option string) -> list (option Timestamp).



End CommandLine.
